(** * scripts/ci/configure-aws-cli.py

    A shallow embedding of the CI helper that writes the AWS CLI
    configuration and credentials files from the R2 environment variables,
    and the properties of its observable contract: exit status, printed
    diagnostics and the files it leaves behind.

    The script is straight-line Python over four pieces of ambient process
    state: the environment ([os.getenv]), the filesystem ([os.path.exists],
    [os.makedirs], [open]), the standard output ([print]) and the control
    effect of [exit], which raises [SystemExit].  The embedding threads that
    state through a small state-and-exception monad. *)

From Stdlib Require Import ZArith Ascii String.
From stdpp Require Import gmap strings list fin_maps.

Local Open Scope string_scope.

(** ** Python values and exceptions the script can meet *)

(** A keyword-argument value; the script passes only [True]. *)
Inductive pyval :=
  | PyBool (b : bool)
  | PyInt (z : Z).

Inductive exn :=
  | SystemExit (code : Z)
  | TypeError (msg : string)
  | ValueError (msg : string)
  | IndexError (msg : string)
  | FileExistsError (path : string)
  | FileNotFoundError (path : string)
  | NotADirectoryError (path : string)
  | IsADirectoryError (path : string)
  | PermissionError (path : string)
  | UnicodeEncodeError (text : string).

Inductive res (A : Type) :=
  | Ok (a : A)
  | Raise (e : exn).
Arguments Ok {A} a.
Arguments Raise {A} e.

(** ** Strings: the fragments of [str] and [textwrap] the script uses *)

Module PyStr.

Definition nl : string := String "010"%char "".

Definition is_empty (s : string) : bool :=
  match s with "" => true | String _ _ => false end.

(** [s.split(sep)] for a one-character separator. *)
Fixpoint split_on (sep : ascii) (s : string) : list string :=
  match s with
  | "" => [""]
  | String c r =>
      if Ascii.eqb c sep then "" :: split_on sep r
      else match split_on sep r with
           | l :: ls => String c l :: ls
           | [] => [String c ""]
           end
  end.

(** [sep.join(pieces)]. *)
Fixpoint join (sep : string) (pieces : list string) : string :=
  match pieces with
  | [] => ""
  | [p] => p
  | p :: ps => p +:+ sep +:+ join sep ps
  end.

Definition lines (s : string) : list string := split_on "010"%char s.

Definition is_blank_char (c : ascii) : bool :=
  Ascii.eqb c " "%char || Ascii.eqb c "009"%char.

(** The line holds nothing but spaces and tabs (the empty line too). *)
Fixpoint whitespace_only (s : string) : bool :=
  match s with
  | "" => true
  | String c r => is_blank_char c && whitespace_only r
  end.

Fixpoint leading_whitespace (s : string) : string :=
  match s with
  | "" => ""
  | String c r => if is_blank_char c then String c (leading_whitespace r) else ""
  end.

Fixpoint common_prefix (a b : string) : string :=
  match a, b with
  | String x a', String y b' =>
      if Ascii.eqb x y then String x (common_prefix a' b') else ""
  | _, _ => ""
  end.

Fixpoint strip_prefix (p s : string) : option string :=
  match p, s with
  | "", _ => Some s
  | String x p', String y s' =>
      if Ascii.eqb x y then strip_prefix p' s' else None
  | String _ _, "" => None
  end.

(** [textwrap.dedent]: lines of blanks only are emptied, the margin is the
    longest run of leading blanks shared by all remaining non-empty lines,
    and it is removed from every line that starts with it. *)
Definition margin (ls : list string) : option string :=
  foldl (fun m l =>
           match m with
           | None => Some (leading_whitespace l)
           | Some m' => Some (common_prefix m' (leading_whitespace l))
           end)
        None (filter (fun l => whitespace_only l = false) ls).

Definition dedent (text : string) : string :=
  let ls := (fun l => if whitespace_only l then "" else l) <$> lines text in
  match margin ls with
  | None => join nl ls
  | Some m =>
      join nl ((fun l => match strip_prefix m l with
                         | Some l' => l'
                         | None => l
                         end) <$> ls)
  end.

(** [template.format(a1, ..., an)] for templates whose replacement fields are
    all the automatic field [{}].  A doubled brace is the escape for one
    brace; any other use of a brace is a field the script never writes and
    is rejected the way Python rejects a malformed field.  The arguments
    are pasted as they are: they are not scanned for fields. *)
Fixpoint format (template : string) (args : list string) : res string :=
  match template with
  | "" => Ok ""
  | String c r =>
      if Ascii.eqb c "{"%char then
        match r with
        | String c' r' =>
            if Ascii.eqb c' "}"%char then
              match args with
              | a :: args' =>
                  match format r' args' with
                  | Ok s => Ok (a +:+ s)
                  | Raise e => Raise e
                  end
              | [] => Raise (IndexError "Replacement index out of range for positional args tuple")
              end
            else if Ascii.eqb c' "{"%char then
              match format r' args with
              | Ok s => Ok (String "{"%char s)
              | Raise e => Raise e
              end
            else Raise (ValueError "unsupported replacement field")
        | "" => Raise (ValueError "Single '{' encountered in format string")
        end
      else if Ascii.eqb c "}"%char then
        match r with
        | String c' r' =>
            if Ascii.eqb c' "}"%char then
              match format r' args with
              | Ok s => Ok (String "}"%char s)
              | Raise e => Raise e
              end
            else Raise (ValueError "Single '}' encountered in format string")
        | "" => Raise (ValueError "Single '}' encountered in format string")
        end
      else
        match format r args with
        | Ok s => Ok (String c s)
        | Raise e => Raise e
        end
  end.

End PyStr.

(** ** Paths: the fragments of [os.path] (POSIX flavour) the script uses *)

Module PosixPath.

Definition is_slash (c : ascii) : bool := Ascii.eqb c "/"%char.

Definition starts_with_slash (s : string) : bool :=
  match s with String c _ => is_slash c | "" => false end.

Fixpoint ends_with_slash (s : string) : bool :=
  match s with
  | "" => false
  | String c "" => is_slash c
  | String _ r => ends_with_slash r
  end.

Fixpoint all_slashes (s : string) : bool :=
  match s with
  | "" => true
  | String c r => is_slash c && all_slashes r
  end.

(** [s.rstrip('/')]. *)
Fixpoint rstrip_slash (s : string) : string :=
  match s with
  | "" => ""
  | String c r =>
      let r' := rstrip_slash r in
      if is_slash c && PyStr.is_empty r' then "" else String c r'
  end.

(** [os.path.join(a, b)]. *)
Definition join (a b : string) : string :=
  if starts_with_slash b then b
  else if PyStr.is_empty a || ends_with_slash a then a +:+ b
  else a +:+ "/" +:+ b.

(** The cut at the last slash: [(p[:i], p[i:])] with [i = p.rfind('/') + 1]. *)
Fixpoint rcut (p : string) : string * string :=
  match p with
  | "" => ("", "")
  | String c r =>
      let '(h, t) := rcut r in
      if PyStr.is_empty h then
        if is_slash c then (String c "", t) else ("", String c t)
      else (String c h, t)
  end.

(** [os.path.split(p)]. *)
Definition split (p : string) : string * string :=
  let '(head, tail) := rcut p in
  if negb (PyStr.is_empty head) && negb (all_slashes head)
  then (rstrip_slash head, tail)
  else (head, tail).

Definition dirname (p : string) : string := fst (split p).

End PosixPath.

(** ** The process: environment, filesystem, standard output *)

(** What a path names: a directory or a regular file with its text.  The
    map of the filesystem gives for a path what the path resolves to; paths
    that share storage (symbolic and hard links) are not part of the model,
    so a statement about a path other than the one written is a statement
    about unrelated storage. *)
Inductive node :=
  | Dir
  | File (contents : string).

#[global] Instance node_eq_dec : EqDecision node.
Proof. solve_decision. Defined.

(** What the interpreter finds where it runs, beside the filesystem and the
    environment.  [encodes] is the codec [open] gives a text file, the one
    of the locale (the interpreter derives it from [LC_ALL], [LC_CTYPE],
    [LANG], [PYTHONUTF8] and the like): it says whether a text can be
    encoded, strictly.  A value of the environment that holds bytes the
    locale cannot decode is a text that cannot be encoded again.
    [may_write] says whether the process is allowed to create, or to open
    for writing, the file at a path (permission bits, a read-only
    filesystem). *)
Record host := Host {
  encodes : string → bool;
  may_write : string → bool;
}.

(** The state a run of the script reads and changes.  [home] is what
    [os.path.expanduser("~")] resolves to for the invoking user; [fs] is the
    filesystem as seen through path strings; [stdout] holds the lines
    printed so far, oldest first. *)
Record process := Process {
  home : string;
  platform : host;
  environ : gmap string string;
  fs : gmap string node;
  stdout : list string;
}.

Definition set_fs (f : gmap string node → gmap string node) (p : process) : process :=
  Process (home p) (platform p) (environ p) (f (fs p)) (stdout p).

Definition put_line (line : string) (p : process) : process :=
  Process (home p) (platform p) (environ p) (fs p) (stdout p ++ [line]).

(** Computations of the script: a state monad over [process] in which a
    step either returns or raises. *)
Definition M (A : Type) : Type := process → res A * process.

#[global] Instance M_ret : MRet M := λ A a p, (Ok a, p).
#[global] Instance M_bind : MBind M := λ A B f m p,
  match m p with
  | (Ok a, p') => f a p'
  | (Raise e, p') => (Raise e, p')
  end.

Definition raise {A} (e : exn) : M A := λ p, (Raise e, p).

Definition lift {A} (r : res A) : M A := λ p, (r, p).

(** [try: body except <handles>: handler]. *)
Definition try_except {A} (body : M A) (handles : exn → bool) (handler : exn → M A) : M A :=
  λ p, match body p with
       | (Ok a, p') => (Ok a, p')
       | (Raise e, p') => if handles e then handler e p' else (Raise e, p')
       end.

Definition modify_fs (f : gmap string node → gmap string node) : M unit :=
  λ p, (Ok tt, set_fs f p).

(** *** Builtins *)

(** [print(line)]. *)
Definition print (line : string) : M unit := λ p, (Ok tt, put_line line p).

(** [exit(code)]: raises [SystemExit]; it never returns. *)
Definition exit {A} (code : Z) : M A := raise (SystemExit code).

(** Truth value of what [os.getenv] returns: [None] and the empty string
    are false. *)
Definition truthy (v : option string) : bool :=
  match v with
  | Some s => negb (PyStr.is_empty s)
  | None => false
  end.

(** *** The [os] module *)

Definition os_getenv (key : string) : M (option string) :=
  λ p, (Ok (environ p !! key), p).

Definition os_path_exists (path : string) : M bool :=
  λ p, (Ok (bool_decide (is_Some (fs p !! path))), p).

Definition os_path_isdir (path : string) : M bool :=
  λ p, (Ok (bool_decide (fs p !! path = Some Dir)), p).

(** [os.path.expanduser]: a lone tilde, or a tilde before a slash, stands
    for the home directory; no other user's home is known, and such a path
    comes back unchanged, like every path without a leading tilde. *)
Definition os_path_expanduser (path : string) : M string :=
  λ p, match path with
       | String c r =>
           if Ascii.eqb c "~"%char && (PyStr.is_empty r || PosixPath.starts_with_slash r)
           then (Ok (home p +:+ r), p)
           else (Ok path, p)
       | "" => (Ok path, p)
       end.

(** The directory that has to hold a new entry [path], checked the way the
    operating system resolves it: the empty directory name is the current
    directory, which exists. *)
Definition check_parent (path : string) : M unit :=
  λ p, let d := PosixPath.dirname path in
       if PyStr.is_empty d then (Ok tt, p)
       else match fs p !! d with
            | Some Dir => (Ok tt, p)
            | Some (File _) => (Raise (NotADirectoryError path), p)
            | None => (Raise (FileNotFoundError path), p)
            end.

(** The process has to be allowed to create or to rewrite what is at
    [path]. *)
Definition check_permission (path : string) : M unit :=
  λ p, if may_write (platform p) path then (Ok tt, p)
       else (Raise (PermissionError path), p).

(** [os.mkdir(path)]. *)
Definition os_mkdir (path : string) : M unit :=
  here ← os_path_exists path;
  if here : bool then raise (FileExistsError path)
  else check_parent path;; check_permission path;; modify_fs (insert path Dir).

Definition is_OSError (e : exn) : bool :=
  match e with
  | FileExistsError _ | FileNotFoundError _
  | NotADirectoryError _ | IsADirectoryError _
  | PermissionError _ => true
  | _ => false
  end.

Definition is_FileExistsError (e : exn) : bool :=
  match e with FileExistsError _ => true | _ => false end.

(** The body of [os.makedirs(name, exist_ok=...)]: make the missing leading
    directories first, then the leaf.  Each recursive call is on a strictly
    shorter head, so [fuel] at the length of [name] is never exhausted. *)
Fixpoint makedirs_body (fuel : nat) (name : string) (exist_ok : bool) : M unit :=
  let '(head, tail) := PosixPath.split name in
  let '(head, tail) :=
    if PyStr.is_empty tail then PosixPath.split head else (head, tail) in
  head_exists ← os_path_exists head;
  leaf ← (if negb (PyStr.is_empty head) && negb (PyStr.is_empty tail)
             && negb head_exists
          then match fuel with
               | O => mret true
               | S fuel' =>
                   try_except (makedirs_body fuel' head exist_ok)
                              is_FileExistsError (λ _, mret tt);;
                   mret (negb (String.eqb tail "."))
               end
          else mret true);
  if leaf : bool then
    try_except (os_mkdir name) is_OSError
      (λ e, isdir ← os_path_isdir name;
            if negb exist_ok || negb isdir then raise e else mret tt)
  else mret tt.

(** The parameters [os.makedirs] declares. *)
Definition makedirs_params : list string := ["name"; "mode"; "exist_ok"].

Definition kwarg_bool (kw : string) (default : bool) (kwargs : list (string * pyval)) : bool :=
  match list_find (λ a, a.1 = kw) kwargs with
  | Some (_, (_, PyBool b)) => b
  | Some (_, (_, PyInt z)) => negb (Z.eqb z 0)
  | None => default
  end.

(** [os.makedirs(name, **kwargs)].  Python binds the arguments before it
    runs the body: a keyword that names no parameter raises [TypeError] and
    nothing of the body is run. *)
Definition os_makedirs (name : string) (kwargs : list (string * pyval)) : M unit :=
  match list_find (λ a, a.1 ∉ makedirs_params) kwargs with
  | Some (_, (kw, _)) =>
      raise (TypeError ("makedirs() got an unexpected keyword argument '" +:+ kw +:+ "'"))
  | None =>
      makedirs_body (String.length name) name (kwarg_bool "exist_ok" false kwargs)
  end.

(** *** Files *)

(** The file at [path] comes to exist, empty, if the process is allowed to
    make it so. *)
Definition create_or_truncate (path : string) : M string :=
  check_permission path;;
  modify_fs (insert path (File ""));;
  mret path.

(** [open(path, "w")]: the file is created, or emptied if it is there, when
    it is opened, before anything is written.  A directory cannot be opened
    for writing; a new file needs a directory to be made in.  The handle is
    the path it was opened on. *)
Definition open_w (path : string) : M string :=
  λ p, match fs p !! path with
       | Some Dir => (Raise (IsADirectoryError path), p)
       | Some (File _) => create_or_truncate path p
       | None => (check_parent path;; create_or_truncate path) p
       end.

(** [handle.write(data)] on a text file: the data are encoded with the
    codec of the locale, strictly, and appended to what the handle has
    written so far.  Data the codec cannot encode raise
    [UnicodeEncodeError] and nothing of them is written; the file stays as
    it was opened.  Nothing in a run removes a file between [open] and
    [write]; the last case only makes the function total. *)
Definition handle_write (handle : string) (data : string) : M unit :=
  λ p, match fs p !! handle with
       | Some (File old) =>
           if encodes (platform p) data
           then (Ok tt, set_fs (insert handle (File (old +:+ data))) p)
           else (Raise (UnicodeEncodeError data), p)
       | _ => (Raise (ValueError "I/O operation on closed file."), p)
       end.

(** ** The script *)

Definition from_env (key : string) : M string :=
  ret ← os_getenv key;
  match ret with
  | Some value =>
      if truthy ret then mret value
      else
        msg ← lift (PyStr.format "Missing required environment variable: {}" [key]);
        print msg;;
        exit 2
  | None =>
      msg ← lift (PyStr.format "Missing required environment variable: {}" [key]);
      print msg;;
      exit 2
  end.

Definition check_no_file_named (path : string) : M unit :=
  there ← os_path_exists path;
  if there : bool then
    msg ← lift (PyStr.format "AWS config file '{}' exists. Refusing to overwrite." [path]);
    print msg;;
    exit 2
  else mret tt.

Definition config_literal : string :=
"    [default]
    endpoint_url = {}
    region = auto
    output = json
    ".

Definition creds_literal : string :=
"    [default]
    aws_access_key_id = {}
    aws_secret_access_key = {}
    ".

Definition write_config (path : string) : M unit :=
  check_no_file_named path;;
  endpoint ← from_env "R2_S3_ENDPOINT";
  let contents := PyStr.dedent config_literal in
  handle ← open_w path;
  text ← lift (PyStr.format contents [endpoint]);
  handle_write handle text.

Definition write_creds (path : string) : M unit :=
  key_id ← from_env "R2_ACCESS_KEY_ID";
  key ← from_env "R2_SECRET_ACCESS_KEY";
  let contents := PyStr.dedent creds_literal in
  handle ← open_w path;
  text ← lift (PyStr.format contents [key_id; key]);
  handle_write handle text.

Definition main : M unit :=
  home_dir ← os_path_expanduser "~";
  let aws_dir := PosixPath.join home_dir ".aws" in
  there ← os_path_exists aws_dir;
  (if negb there
   then os_makedirs aws_dir [("exists_ok", PyBool true)]
   else mret tt);;
  let config_file := PosixPath.join aws_dir "config" in
  let creds_file := PosixPath.join aws_dir "credentials" in
  write_config config_file;;
  write_creds creds_file.

(** ** Running the script as a process *)

(** The exit status the interpreter ends with: 0 when [main] returns, the
    code of a [SystemExit], and 1 for any other exception that nothing
    caught (the interpreter prints its traceback on the error stream). *)
Definition exit_status {A} (r : res A) : Z :=
  match r with
  | Ok _ => 0
  | Raise (SystemExit code) => code
  | Raise _ => 1
  end.

(** What a run leaves behind. *)
Record outcome := Outcome {
  raised : res unit;
  status : Z;
  printed : list string;
  files : gmap string node;
}.

(** [python3 configure-aws-cli.py], with nothing printed yet. *)
Definition run (home_dir : string) (on : host) (env : gmap string string)
    (disk : gmap string node) : outcome :=
  let '(r, p) := main (Process home_dir on env disk []) in
  Outcome r (exit_status r) (stdout p) (fs p).

(** The paths the script works on, for a given home directory. *)
Definition aws_dir_of (home_dir : string) : string := PosixPath.join home_dir ".aws".
Definition config_file_of (home_dir : string) : string :=
  PosixPath.join (aws_dir_of home_dir) "config".
Definition creds_file_of (home_dir : string) : string :=
  PosixPath.join (aws_dir_of home_dir) "credentials".

(** The texts the two files are documented to hold. *)
Definition config_text (endpoint : string) : string :=
  "[default]" +:+ PyStr.nl +:+
  "endpoint_url = " +:+ endpoint +:+ PyStr.nl +:+
  "region = auto" +:+ PyStr.nl +:+
  "output = json" +:+ PyStr.nl.

Definition creds_text (key_id key : string) : string :=
  "[default]" +:+ PyStr.nl +:+
  "aws_access_key_id = " +:+ key_id +:+ PyStr.nl +:+
  "aws_secret_access_key = " +:+ key +:+ PyStr.nl.

(** The two diagnostics. *)
Definition missing_msg (key : string) : string :=
  "Missing required environment variable: " +:+ key.

Definition exists_msg (path : string) : string :=
  "AWS config file '" +:+ path +:+ "' exists. Refusing to overwrite.".

Definition required_vars : list string :=
  ["R2_S3_ENDPOINT"; "R2_ACCESS_KEY_ID"; "R2_SECRET_ACCESS_KEY"].

(** A variable counts as missing when it is unset or set to the empty
    string. *)
Definition missing (env : gmap string string) (key : string) : Prop :=
  env !! key = None ∨ env !! key = Some "".

#[global] Instance missing_dec env key : Decision (missing env key).
Proof. unfold missing. apply _. Defined.

(** * Facts about the string and path functions *)

Section string_facts.

Lemma append_cons (x : ascii) (a b : string) :
  String x a +:+ b = String x (a +:+ b).
Proof. done. Qed.

Lemma append_nil_r (s : string) : s +:+ "" = s.
Proof. induction s as [|c s IH]; [done|]. by rewrite append_cons, IH. Qed.

Lemma append_assoc (a b c : string) : (a +:+ b) +:+ c = a +:+ (b +:+ c).
Proof. induction a as [|x a IH]; [done|]. by rewrite !append_cons, IH. Qed.

Lemma is_empty_app_cons (a : string) (x : ascii) (b : string) :
  PyStr.is_empty (a +:+ String x b) = false.
Proof. by destruct a. Qed.

(** No brace in the text. *)
Fixpoint brace_free (s : string) : bool :=
  match s with
  | "" => true
  | String c r =>
      negb (Ascii.eqb c "{"%char) && negb (Ascii.eqb c "}"%char) && brace_free r
  end.

Lemma format_plain (s : string) (args : list string) :
  brace_free s = true → PyStr.format s args = Ok s.
Proof.
  induction s as [|c s IH]; [done|]. cbn [brace_free PyStr.format].
  intros [[Ho Hc]%andb_prop Hs]%andb_prop.
  apply negb_true_iff in Ho, Hc. rewrite Ho, Hc, IH by done. done.
Qed.

(** A template is copied up to its first field, the next argument is
    pasted in as it is, and formatting goes on behind the field. *)
Lemma format_field (pre rest a : string) (args : list string) :
  brace_free pre = true →
  PyStr.format (pre +:+ "{}" +:+ rest) (a :: args) =
    match PyStr.format rest args with
    | Ok s => Ok (pre +:+ a +:+ s)
    | Raise e => Raise e
    end.
Proof.
  induction pre as [|c pre IH]; intros Hpre.
  - change ("" +:+ "{}" +:+ rest) with (String "{" (String "}" rest)).
    cbn. by destruct (PyStr.format rest args).
  - cbn [brace_free] in Hpre.
    apply andb_prop in Hpre as [[Ho Hc]%andb_prop Hpre].
    apply negb_true_iff in Ho, Hc.
    rewrite append_cons. cbn [PyStr.format]. rewrite Ho, Hc, IH by done.
    by destruct (PyStr.format rest args).
Qed.

Lemma dedent_config_literal :
  PyStr.dedent config_literal =
    ("[default]" +:+ PyStr.nl +:+ "endpoint_url = ") +:+ "{}" +:+
    (PyStr.nl +:+ "region = auto" +:+ PyStr.nl +:+ "output = json" +:+ PyStr.nl).
Proof. vm_compute. reflexivity. Qed.

Lemma dedent_creds_literal :
  PyStr.dedent creds_literal =
    ("[default]" +:+ PyStr.nl +:+ "aws_access_key_id = ") +:+ "{}" +:+
    (PyStr.nl +:+ "aws_secret_access_key = ") +:+ "{}" +:+ PyStr.nl.
Proof. vm_compute. reflexivity. Qed.

Lemma format_config (endpoint : string) :
  PyStr.format (PyStr.dedent config_literal) [endpoint] = Ok (config_text endpoint).
Proof.
  rewrite dedent_config_literal, format_field by done.
  rewrite format_plain by done.
  unfold config_text. by rewrite !append_assoc.
Qed.

Lemma format_creds (key_id key : string) :
  PyStr.format (PyStr.dedent creds_literal) [key_id; key] = Ok (creds_text key_id key).
Proof.
  rewrite dedent_creds_literal, format_field by done.
  rewrite format_field by done.
  rewrite format_plain by done.
  unfold creds_text. by rewrite !append_assoc.
Qed.

Lemma format_missing (key : string) :
  PyStr.format "Missing required environment variable: {}" [key] = Ok (missing_msg key).
Proof.
  change "Missing required environment variable: {}"
    with ("Missing required environment variable: " +:+ "{}" +:+ "").
  rewrite format_field by done. cbn.
  unfold missing_msg. by rewrite append_nil_r.
Qed.

Lemma format_exists (path : string) :
  PyStr.format "AWS config file '{}' exists. Refusing to overwrite." [path]
  = Ok (exists_msg path).
Proof.
  change "AWS config file '{}' exists. Refusing to overwrite."
    with ("AWS config file '" +:+ "{}" +:+ "' exists. Refusing to overwrite.").
  rewrite format_field by done. by rewrite format_plain.
Qed.

End string_facts.

Section path_facts.
Import PosixPath.

Fixpoint slash_free (s : string) : bool :=
  match s with
  | "" => true
  | String c r => negb (is_slash c) && slash_free r
  end.

Lemma rcut_slash_free (b : string) : slash_free b = true → rcut b = ("", b).
Proof.
  induction b as [|c b IH]; [done|]. cbn [slash_free rcut].
  intros [Hc Hb]%andb_prop. apply negb_true_iff in Hc.
  by rewrite IH, Hc.
Qed.

Lemma rcut_app (a b : string) :
  slash_free b = true → rcut (a +:+ "/" +:+ b) = (a +:+ "/", b).
Proof.
  intros Hb. induction a as [|c a IH].
  - change ("" +:+ "/" +:+ b) with (String "/" b). cbn [rcut].
    by rewrite rcut_slash_free.
  - rewrite !(append_cons c a). cbn [rcut]. rewrite IH.
    by rewrite is_empty_app_cons.
Qed.

Lemma ends_with_slash_app (a : string) (x : ascii) (b : string) :
  ends_with_slash (a +:+ String x b) = ends_with_slash (String x b).
Proof.
  induction a as [|c a IH]; [done|]. rewrite append_cons.
  change (ends_with_slash (String c (a +:+ String x b)))
    with (match a +:+ String x b with
          | "" => is_slash c
          | String _ _ => ends_with_slash (a +:+ String x b)
          end).
  rewrite IH. by destruct a.
Qed.

Lemma rstrip_slash_app (a : string) :
  a ≠ "" → ends_with_slash a = false → rstrip_slash (a +:+ "/") = a.
Proof.
  induction a as [|c a IH]; [done|]. intros _ Hend.
  rewrite append_cons. cbn [rstrip_slash].
  destruct a as [|c' a].
  - cbn in Hend |- *. by rewrite Hend.
  - rewrite IH by done. cbn. by rewrite andb_false_r.
Qed.

Lemma all_slashes_app (a : string) :
  a ≠ "" → ends_with_slash a = false → all_slashes (a +:+ "/") = false.
Proof.
  induction a as [|c a IH]; [done|]. intros _ Hend.
  rewrite append_cons. cbn [all_slashes].
  destruct a as [|c' a].
  - cbn in Hend. by rewrite Hend.
  - rewrite IH by done. by rewrite andb_false_r.
Qed.

(** Joining a name below a directory and splitting again gives the
    directory back. *)
Lemma split_join (a b : string) :
  a ≠ "" → ends_with_slash a = false → slash_free b = true →
  split (join a b) = (a, b).
Proof.
  intros Ha Hend Hb. unfold join.
  assert (starts_with_slash b = false) as ->.
  { destruct b; [done|]. cbn in Hb |- *.
    apply andb_prop in Hb as [Hc _]. by apply negb_true_iff in Hc. }
  rewrite Hend, orb_false_r.
  assert (PyStr.is_empty a = false) as -> by by destruct a.
  unfold split. rewrite rcut_app by done.
  rewrite is_empty_app_cons, all_slashes_app by done. cbn.
  by rewrite rstrip_slash_app.
Qed.

(** The directory the script works in is the home directory with the name
    [.aws] behind it. *)
Lemma aws_dir_shape (h : string) : ∃ x, aws_dir_of h = x +:+ ".aws".
Proof.
  unfold aws_dir_of, join. cbn [starts_with_slash is_slash Ascii.eqb].
  change (Ascii.eqb "." "/") with false. cbn match.
  destruct (PyStr.is_empty h || ends_with_slash h).
  - by exists h.
  - exists (h +:+ "/"). by rewrite append_assoc.
Qed.

Lemma aws_dir_nonempty (h : string) : aws_dir_of h ≠ "".
Proof. destruct (aws_dir_shape h) as [x ->]. by destruct x. Qed.

Lemma aws_dir_no_slash (h : string) : ends_with_slash (aws_dir_of h) = false.
Proof. destruct (aws_dir_shape h) as [x ->]. by rewrite ends_with_slash_app. Qed.

Lemma config_file_eq (h : string) : config_file_of h = aws_dir_of h +:+ "/config".
Proof.
  unfold config_file_of, join. cbn [starts_with_slash].
  change (is_slash "c") with false. cbn match.
  rewrite aws_dir_no_slash, orb_false_r.
  pose proof (aws_dir_nonempty h). by destruct (aws_dir_of h).
Qed.

Lemma creds_file_eq (h : string) : creds_file_of h = aws_dir_of h +:+ "/credentials".
Proof.
  unfold creds_file_of, join. cbn [starts_with_slash].
  change (is_slash "c") with false. cbn match.
  rewrite aws_dir_no_slash, orb_false_r.
  pose proof (aws_dir_nonempty h). by destruct (aws_dir_of h).
Qed.

Lemma dirname_config (h : string) : dirname (config_file_of h) = aws_dir_of h.
Proof.
  unfold dirname, config_file_of.
  by rewrite split_join by auto using aws_dir_nonempty, aws_dir_no_slash.
Qed.

Lemma dirname_creds (h : string) : dirname (creds_file_of h) = aws_dir_of h.
Proof.
  unfold dirname, creds_file_of.
  by rewrite split_join by auto using aws_dir_nonempty, aws_dir_no_slash.
Qed.

Lemma config_ne_creds (h : string) : config_file_of h ≠ creds_file_of h.
Proof.
  rewrite config_file_eq, creds_file_eq. intros E.
  by apply (inj (String.append _)) in E.
Qed.

Lemma aws_dir_ne_config (h : string) : aws_dir_of h ≠ config_file_of h.
Proof.
  rewrite config_file_eq. intros E.
  rewrite <- (append_nil_r (aws_dir_of h)) in E at 1.
  by apply (inj (String.append _)) in E.
Qed.

Lemma aws_dir_ne_creds (h : string) : aws_dir_of h ≠ creds_file_of h.
Proof.
  rewrite creds_file_eq. intros E.
  rewrite <- (append_nil_r (aws_dir_of h)) in E at 1.
  by apply (inj (String.append _)) in E.
Qed.

End path_facts.

(** * What each function of the script does *)

Ltac unfold_M :=
  unfold mbind, M_bind, mret, M_ret, lift, print, exit, raise, os_getenv,
    os_path_exists, modify_fs in *.

Section script_facts.

Lemma not_missing (env : gmap string string) (key : string) :
  ¬ missing env key → ∃ v, env !! key = Some v ∧ v ≠ "".
Proof.
  unfold missing. destruct (env !! key) as [[|c r]|]; naive_solver.
Qed.

(** [from_env]: the value when the variable is set and not empty;
    otherwise the diagnostic is printed and [SystemExit(2)] is raised. *)
Lemma from_env_eq (key : string) (p : process) :
  from_env key p =
    if decide (missing (environ p) key)
    then (Raise (SystemExit 2), put_line (missing_msg key) p)
    else (Ok (default "" (environ p !! key)), p).
Proof.
  unfold from_env. unfold_M. rewrite format_missing.
  case_decide as Hm; unfold missing in Hm;
    destruct (environ p !! key) as [[|c r]|]; cbn; intuition congruence.
Qed.

Lemma check_no_file_named_eq (path : string) (p : process) :
  check_no_file_named path p =
    if bool_decide (is_Some (fs p !! path))
    then (Raise (SystemExit 2), put_line (exists_msg path) p)
    else (Ok tt, p).
Proof.
  unfold check_no_file_named. unfold_M. rewrite format_exists.
  by case_bool_decide.
Qed.

(** What opening a path for writing and writing one text to it comes to,
    once the path is known to be no directory and to have a directory to lie
    in: without the permission nothing happens; with it the file is there,
    empty if the text cannot be encoded. *)
Definition write_text (path text : string) (p : process) : res unit * process :=
  if may_write (platform p) path then
    if encodes (platform p) text
    then (Ok tt, set_fs (insert path (File text)) p)
    else (Raise (UnicodeEncodeError text), set_fs (insert path (File "")) p)
  else (Raise (PermissionError path), p).

Lemma check_parent_state (path : string) (p : process) :
  (check_parent path p).2 = p.
Proof.
  unfold check_parent. cbn zeta.
  destruct (PyStr.is_empty _); [done|]. by destruct (fs p !! _) as [[|x]|].
Qed.

Lemma create_write_eq (path text : string) (p : process) :
  match create_or_truncate path p with
  | (Ok handle, p') => handle_write handle text p'
  | (Raise e, p') => (Raise e, p')
  end = write_text path text p.
Proof.
  unfold create_or_truncate, check_permission, write_text. unfold_M.
  destruct (may_write (platform p) path); [|done].
  unfold handle_write, set_fs. cbn [fs platform]. rewrite lookup_insert_eq.
  destruct (encodes (platform p) text); [|done].
  cbn [home platform environ fs stdout]. by rewrite insert_insert_eq.
Qed.

(** Opening a path for writing and writing one text to it. *)
Lemma open_write_eq (path text : string) (p : process) :
  (handle ← open_w path; handle_write handle text) p =
    match fs p !! path with
    | Some Dir => (Raise (IsADirectoryError path), p)
    | Some (File _) => write_text path text p
    | None =>
        match check_parent path p with
        | (Ok _, _) => write_text path text p
        | (Raise e, _) => (Raise e, p)
        end
    end.
Proof.
  unfold mbind at 1, M_bind at 1. unfold open_w.
  destruct (fs p !! path) as [[|old]|]; [done|apply create_write_eq|].
  unfold mbind at 1, M_bind at 1.
  pose proof (check_parent_state path p) as Hst.
  destruct (check_parent path p) as [[[]|e] p0]; cbn in Hst; subst p0; [|done].
  apply create_write_eq.
Qed.

Lemma write_config_eq (path : string) (p : process) :
  write_config path p =
    if bool_decide (is_Some (fs p !! path))
    then (Raise (SystemExit 2), put_line (exists_msg path) p)
    else if decide (missing (environ p) "R2_S3_ENDPOINT")
    then (Raise (SystemExit 2), put_line (missing_msg "R2_S3_ENDPOINT") p)
    else
      match check_parent path p with
      | (Ok _, _) =>
          write_text path
            (config_text (default "" (environ p !! "R2_S3_ENDPOINT"))) p
      | (Raise e, _) => (Raise e, p)
      end.
Proof.
  unfold write_config.
  unfold mbind at 1, M_bind at 1. rewrite check_no_file_named_eq.
  case_bool_decide as Hex; [done|].
  unfold mbind at 1, M_bind at 1. rewrite from_env_eq.
  case_decide; [done|].
  pose proof (open_write_eq path
    (config_text (default "" (environ p !! "R2_S3_ENDPOINT"))) p) as Hw.
  assert (fs p !! path = None) as Hnone.
  { destruct (fs p !! path) eqn:E; [|done]. destruct Hex. by eexists. }
  rewrite Hnone in Hw. rewrite <- Hw.
  unfold mbind, M_bind, lift. rewrite format_config.
  by destruct (open_w path p) as [[hd|e] p'].
Qed.

Lemma write_creds_eq (path : string) (p : process) :
  write_creds path p =
    if decide (missing (environ p) "R2_ACCESS_KEY_ID")
    then (Raise (SystemExit 2), put_line (missing_msg "R2_ACCESS_KEY_ID") p)
    else if decide (missing (environ p) "R2_SECRET_ACCESS_KEY")
    then (Raise (SystemExit 2), put_line (missing_msg "R2_SECRET_ACCESS_KEY") p)
    else
      let text := creds_text (default "" (environ p !! "R2_ACCESS_KEY_ID"))
                             (default "" (environ p !! "R2_SECRET_ACCESS_KEY")) in
      match fs p !! path with
      | Some Dir => (Raise (IsADirectoryError path), p)
      | Some (File _) => write_text path text p
      | None =>
          match check_parent path p with
          | (Ok _, _) => write_text path text p
          | (Raise e, _) => (Raise e, p)
          end
      end.
Proof.
  unfold write_creds.
  unfold mbind at 1, M_bind at 1. rewrite from_env_eq.
  case_decide; [done|].
  unfold mbind at 1, M_bind at 1. rewrite from_env_eq.
  case_decide; [done|].
  cbn zeta. rewrite <- open_write_eq.
  unfold mbind, M_bind, lift. rewrite format_creds.
  by destruct (open_w path p) as [[hd|e] p'].
Qed.

(** The misspelt keyword: [exists_ok] names no parameter of
    [os.makedirs], so the call raises before anything is created. *)
Lemma os_makedirs_exists_ok (name : string) (p : process) :
  os_makedirs name [("exists_ok", PyBool true)] p =
    (Raise (TypeError "makedirs() got an unexpected keyword argument 'exists_ok'"), p).
Proof. reflexivity. Qed.

Lemma expanduser_tilde (p : process) : os_path_expanduser "~" p = (Ok (home p), p).
Proof. unfold os_path_expanduser. cbn. by rewrite append_nil_r. Qed.

Lemma main_eq (p : process) :
  main p =
    let h := home p in
    if bool_decide (is_Some (fs p !! aws_dir_of h)) then
      match write_config (config_file_of h) p with
      | (Ok _, p') => write_creds (creds_file_of h) p'
      | (Raise e, p') => (Raise e, p')
      end
    else
      (Raise (TypeError "makedirs() got an unexpected keyword argument 'exists_ok'"), p).
Proof.
  unfold main. unfold mbind at 1, M_bind at 1. rewrite expanduser_tilde.
  fold (aws_dir_of (home p)). fold (config_file_of (home p)).
  fold (creds_file_of (home p)).
  unfold mbind at 1, M_bind at 1. unfold os_path_exists at 1.
  case_bool_decide; cbn [negb].
  - unfold mbind, M_bind, mret, M_ret. done.
  - unfold mbind at 1, M_bind at 1. by rewrite os_makedirs_exists_ok.
Qed.

End script_facts.

(** * What a run does, case by case *)

Section run_facts.

Definition makedirs_error : exn :=
  TypeError "makedirs() got an unexpected keyword argument 'exists_ok'".

Lemma check_parent_config (h : string) (p : process) :
  check_parent (config_file_of h) p =
    match fs p !! aws_dir_of h with
    | Some Dir => (Ok tt, p)
    | Some (File _) => (Raise (NotADirectoryError (config_file_of h)), p)
    | None => (Raise (FileNotFoundError (config_file_of h)), p)
    end.
Proof.
  unfold check_parent. rewrite dirname_config.
  pose proof (aws_dir_nonempty h). by destruct (aws_dir_of h).
Qed.

Lemma check_parent_creds (h : string) (p : process) :
  check_parent (creds_file_of h) p =
    match fs p !! aws_dir_of h with
    | Some Dir => (Ok tt, p)
    | Some (File _) => (Raise (NotADirectoryError (creds_file_of h)), p)
    | None => (Raise (FileNotFoundError (creds_file_of h)), p)
    end.
Proof.
  unfold check_parent. rewrite dirname_creds.
  pose proof (aws_dir_nonempty h). by destruct (aws_dir_of h).
Qed.

(** The whole run as a decision tree over what the script looks at: the
    node at [~/.aws], the two target paths, the three variables, and what
    the host allows and can encode. *)
Theorem run_eq (h : string) (on : host) (env : gmap string string)
    (disk : gmap string node) :
  run h on env disk =
    let C := config_file_of h in
    let K := creds_file_of h in
    match disk !! aws_dir_of h with
    | None => Outcome (Raise makedirs_error) 1 [] disk
    | Some n =>
        if bool_decide (is_Some (disk !! C)) then
          Outcome (Raise (SystemExit 2)) 2 [exists_msg C] disk
        else if decide (missing env "R2_S3_ENDPOINT") then
          Outcome (Raise (SystemExit 2)) 2 [missing_msg "R2_S3_ENDPOINT"] disk
        else
          match n with
          | File _ => Outcome (Raise (NotADirectoryError C)) 1 [] disk
          | Dir =>
              let config := config_text (default "" (env !! "R2_S3_ENDPOINT")) in
              if negb (may_write on C) then
                Outcome (Raise (PermissionError C)) 1 [] disk
              else if negb (encodes on config) then
                Outcome (Raise (UnicodeEncodeError config)) 1 []
                  (<[C := File ""]> disk)
              else
              let disk1 := <[C := File config]> disk in
              if decide (missing env "R2_ACCESS_KEY_ID") then
                Outcome (Raise (SystemExit 2)) 2 [missing_msg "R2_ACCESS_KEY_ID"] disk1
              else if decide (missing env "R2_SECRET_ACCESS_KEY") then
                Outcome (Raise (SystemExit 2)) 2 [missing_msg "R2_SECRET_ACCESS_KEY"] disk1
              else
                let creds := creds_text (default "" (env !! "R2_ACCESS_KEY_ID"))
                                        (default "" (env !! "R2_SECRET_ACCESS_KEY")) in
                match disk !! K with
                | Some Dir => Outcome (Raise (IsADirectoryError K)) 1 [] disk1
                | _ =>
                    if negb (may_write on K) then
                      Outcome (Raise (PermissionError K)) 1 [] disk1
                    else if negb (encodes on creds) then
                      Outcome (Raise (UnicodeEncodeError creds)) 1 []
                        (<[K := File ""]> disk1)
                    else
                      Outcome (Ok tt) 0 [] (<[K := File creds]> disk1)
                end
          end
    end.
Proof.
  unfold run. rewrite main_eq. cbn [home fs environ].
  destruct (disk !! aws_dir_of h) as [n|] eqn:HA; cbn zeta.
  2: { rewrite bool_decide_eq_false_2; [done|]. by intros [? ?]. }
  rewrite bool_decide_eq_true_2 by by eexists.
  rewrite write_config_eq. cbn [home fs environ].
  case_bool_decide as HC; [done|].
  case_decide as HE; [done|].
  rewrite check_parent_config. cbn [home fs]. rewrite HA.
  destruct n as [|x]; [|done].
  unfold write_text at 1. cbn [platform].
  destruct (may_write on (config_file_of h)); [|done].
  destruct (encodes on (config_text _)); [|done].
  cbn [negb]. rewrite write_creds_eq. unfold set_fs.
  cbn [home platform environ fs stdout].
  case_decide as HK; [done|].
  case_decide as HS; [done|].
  cbn zeta. rewrite lookup_insert_ne by apply config_ne_creds.
  rewrite check_parent_creds. cbn [fs].
  rewrite lookup_insert_ne by (apply not_eq_sym, aws_dir_ne_config).
  rewrite HA. unfold write_text, set_fs. cbn [home platform environ fs stdout].
  destruct (disk !! creds_file_of h) as [[|old]|] eqn:HKf; [done|..];
    (destruct (may_write on (creds_file_of h)); [|done]);
    by destruct (encodes on (creds_text _ _)).
Qed.

End run_facts.

(** * Filesystems that can exist, and the inputs of the examples *)

(** In a filesystem that can exist every entry lies in a directory: the
    node at the directory name of each path is a directory (the root and
    names in the current directory have none to check). *)
Definition parent_ok (disk : gmap string node) (path : string) : Prop :=
  let d := PosixPath.dirname path in
  d = "" ∨ d = path ∨ disk !! d = Some Dir.

#[global] Instance parent_ok_dec disk path : Decision (parent_ok disk path).
Proof. unfold parent_ok. cbn zeta. apply _. Defined.




(** A codec that encodes seven-bit text and nothing else, as the one of
    an ASCII locale. *)
Fixpoint seven_bit (s : string) : bool :=
  match s with
  | "" => true
  | String (Ascii _ _ _ _ _ _ _ high) r => negb high && seven_bit r
  end.

Module Examples.

Definition home_ci : string := "/home/ci".

(** A host with an ASCII locale on which the process may write
    everywhere. *)
Definition host_ci : host := Host seven_bit (λ _, true).

(** The same host with a home directory the process may not write in. *)
Definition host_read_only : host := Host seven_bit (λ _, false).


(** The values of the specification's example. *)
Definition env_all : gmap string string :=
  <["R2_S3_ENDPOINT" := "https://x.r2.cloudflarestorage.com"]>
  (<["R2_ACCESS_KEY_ID" := "AKIA..."]>
  (<["R2_SECRET_ACCESS_KEY" := "secret"]> ∅)).

(** A fresh machine: the home directory and nothing below it. *)
Definition disk_fresh : gmap string node :=
  <["/" := Dir]> (<["/home" := Dir]> (<["/home/ci" := Dir]> ∅)).

(** The same with an empty [~/.aws]. *)
Definition disk_aws : gmap string node :=
  <["/home/ci/.aws" := Dir]> disk_fresh.

(** An operator's credentials file is already there. *)
Definition disk_creds : gmap string node :=
  <["/home/ci/.aws/credentials" := File "operator"]> disk_aws.

(** An operator's config file is already there. *)
Definition disk_config : gmap string node :=
  <["/home/ci/.aws/config" := File "operator"]> disk_aws.

(** A directory where the credentials file would go. *)
Definition disk_creds_dir : gmap string node :=
  <["/home/ci/.aws/credentials" := Dir]> disk_aws.



End Examples.

(** * What a run depends on, and what it touches *)

Section dependence.




(** Writing a list of nodes, first to last. *)
Definition apply_writes (ws : list (string * node)) (disk : gmap string node) :
    gmap string node :=
  foldl (λ d w, <[w.1 := w.2]> d) disk ws.

Lemma apply_writes_other (ws : list (string * node)) (disk : gmap string node)
    (q : string) :
  Forall (λ w, w.1 ≠ q) ws → apply_writes ws disk !! q = disk !! q.
Proof.
  revert disk. induction ws as [|[p n] ws IH]; intros disk Hws; [done|].
  apply Forall_cons in Hws as [Hp Hws]. cbn in Hp |- *.
  unfold apply_writes in IH. rewrite IH by done.
  by rewrite lookup_insert_ne.
Qed.


Local Ltac leaf ws :=
  eexists _, _, _, ws;
  split; [repeat constructor; cbn; auto | split; reflexivity].



(** Without [~/.aws] the run ends in the [TypeError] of the misspelt
    keyword, whatever the environment holds. *)
Lemma run_no_aws_dir (h : string) (on : host) (env : gmap string string)
    (disk : gmap string node) :
  disk !! aws_dir_of h = None →
  run h on env disk = Outcome (Raise makedirs_error) 1 [] disk.
Proof. intros HA. rewrite run_eq. cbn zeta. by rewrite HA. Qed.


End dependence.

(** * Lines of a text *)

(** No newline in the text. *)
Fixpoint newline_free (s : string) : bool :=
  match s with
  | "" => true
  | String c r => negb (Ascii.eqb c "010"%char) && newline_free r
  end.

Lemma newline_free_app (a b : string) :
  newline_free a = true → newline_free b = true → newline_free (a +:+ b) = true.
Proof.
  intros Ha Hb. induction a as [|c a IH]; [done|].
  rewrite append_cons. cbn [newline_free] in Ha |- *.
  apply andb_prop in Ha as [Hc Ha]. by rewrite Hc, IH.
Qed.

Lemma lines_app (a b : string) :
  newline_free a = true →
  PyStr.lines (a +:+ PyStr.nl +:+ b) = a :: PyStr.lines b.
Proof.
  unfold PyStr.lines. induction a as [|c a IH]; [done|].
  rewrite append_cons. cbn [newline_free PyStr.split_on].
  intros [Hc Ha]%andb_prop. apply negb_true_iff in Hc.
  by rewrite Hc, IH.
Qed.

Lemma config_text_lines (e : string) :
  newline_free e = true →
  PyStr.lines (config_text e) =
    ["[default]"; "endpoint_url = " +:+ e; "region = auto"; "output = json"; ""].
Proof.
  intros He. unfold config_text.
  rewrite lines_app by done.
  rewrite <- (append_assoc "endpoint_url = " e).
  rewrite lines_app by (by apply newline_free_app).
  rewrite lines_app by done.
  change ("output = json" +:+ PyStr.nl) with ("output = json" +:+ PyStr.nl +:+ "").
  by rewrite lines_app.
Qed.

Lemma creds_text_lines (k s : string) :
  newline_free k = true → newline_free s = true →
  PyStr.lines (creds_text k s) =
    ["[default]"; "aws_access_key_id = " +:+ k; "aws_secret_access_key = " +:+ s; ""].
Proof.
  intros Hk Hs. unfold creds_text.
  rewrite lines_app by done.
  rewrite <- (append_assoc "aws_access_key_id = " k).
  rewrite lines_app by (by apply newline_free_app).
  change ("aws_secret_access_key = " +:+ s +:+ PyStr.nl)
    with ("aws_secret_access_key = " +:+ s +:+ PyStr.nl +:+ "").
  rewrite <- (append_assoc "aws_secret_access_key = " s).
  by rewrite lines_app by (by apply newline_free_app).
Qed.

(** * The contract of the script *)

Import Examples.
Local Open Scope Z_scope.

(** The keyword the call meant, [exist_ok], makes [os.makedirs] create the
    missing directory and return. *)
Lemma makedirs_exist_ok_creates :
  let '(r, p) := os_makedirs "/home/ci/.aws" [("exist_ok", PyBool true)]
                   (Process home_ci host_ci env_all disk_fresh []) in
  r = Ok tt ∧ fs p = disk_aws.
Proof. vm_compute. split; reflexivity. Qed.

(** C1, as the code has it for the credentials file: [write_creds] never
    calls [check_no_file_named], so with the three variables set, [~/.aws]
    present and an operator's credentials file in it, the run does not abort
    with status 2: it ends with status 0, prints nothing, and the file that
    was there is overwritten with the generated text. *)
Lemma credentials_file_overwritten :
  let o := run home_ci host_ci env_all disk_creds in
  disk_creds !! creds_file_of home_ci = Some (File "operator") ∧
  status o = 0 ∧
  printed o = [] ∧
  files o !! creds_file_of home_ci = Some (File (creds_text "AKIA..." "secret")).
Proof. vm_compute. repeat split; reflexivity. Qed.

(** C2, as the code has it: with [~/.aws] absent the script calls
    [os.makedirs] with the keyword [exists_ok], which it does not accept.
    The run ends in an uncaught [TypeError] with status 1; the directory is
    not created and nothing is written. *)
Lemma missing_aws_dir_not_created :
  let o := run home_ci host_ci env_all disk_fresh in
  disk_fresh !! aws_dir_of home_ci = None ∧
  raised o = Raise (TypeError "makedirs() got an unexpected keyword argument 'exists_ok'") ∧
  status o = 1 ∧
  files o = disk_fresh.
Proof. vm_compute. repeat split; reflexivity. Qed.




(** C4, as the code has it: on a machine where [~/.aws] does not exist yet,
    with the three variables set and neither target file there, the run
    does not end with status 0 and produces neither file. *)
Lemma fresh_home_run_fails :
  let o := run home_ci host_ci env_all disk_fresh in
  (∀ k, k ∈ required_vars → ¬ missing env_all k) ∧
  disk_fresh !! config_file_of home_ci = None ∧
  disk_fresh !! creds_file_of home_ci = None ∧
  status o ≠ 0 ∧
  files o !! config_file_of home_ci = None ∧
  files o !! creds_file_of home_ci = None.
Proof.
  cbn zeta. split; [|by vm_compute].
  intros k Hk [Hm|Hm]; unfold required_vars in Hk;
    repeat (apply elem_of_cons in Hk as [->|Hk]; [by vm_compute in Hm|]);
    by apply elem_of_nil in Hk.
Qed.

(** C5, as the code has it: an exit status other than 0 and 2 is possible,
    and without any diagnostic printed by the script.  On a machine where
    [~/.aws] does not exist the status is 1 and the standard output is
    empty. *)
Lemma exit_status_one_without_diagnostic :
  let o := run home_ci host_ci env_all disk_fresh in
  status o = 1 ∧ printed o = [].
Proof. vm_compute. split; reflexivity. Qed.

(** A value made to carry more than a value: it closes its own line and
    opens a section of its own. *)
Definition crafted_endpoint : string :=
  "https://x" +:+ PyStr.nl +:+ "[evil]" +:+ PyStr.nl +:+ "region = elsewhere".

Definition env_crafted : gmap string string :=
  <["R2_S3_ENDPOINT" := crafted_endpoint]> env_all.

(** C6 as stated fails: a run can end with status 0 and leave a config file
    that is not the single section with the three documented lines.  With
    an endpoint that carries newlines the file has a section [[evil]] and a
    second [region] line. *)
Lemma success_with_extra_section :
  let o := run home_ci host_ci env_crafted disk_aws in
  status o = 0 ∧
  env_crafted !! "R2_S3_ENDPOINT" = Some crafted_endpoint ∧
  ∃ text,
    files o !! config_file_of home_ci = Some (File text) ∧
    PyStr.lines text ≠
      ["[default]"; "endpoint_url = " +:+ crafted_endpoint;
       "region = auto"; "output = json"; ""] ∧
    PyStr.lines text =
      ["[default]"; "endpoint_url = https://x"; "[evil]"; "region = elsewhere";
       "region = auto"; "output = json"; ""].
Proof.
  cbn zeta. split; [by vm_compute|]. split; [by vm_compute|].
  exists (config_text crafted_endpoint). split; [by vm_compute|].
  split; [vm_compute; discriminate|by vm_compute].
Qed.

(** C6, amended: on a successful run (exit status 0) the three variables
    are set, the config file holds the text [[default]],
    [endpoint_url = <R2_S3_ENDPOINT>], [region = auto], [output = json]
    with each piece closed by a newline, and the credentials file the text
    [[default]], [aws_access_key_id = <R2_ACCESS_KEY_ID>],
    [aws_secret_access_key = <R2_SECRET_ACCESS_KEY>].  When the values hold
    no newline, these texts are a single section [[default]] with exactly
    those lines. *)
Theorem success_file_contents (h : string) (on : host) (env : gmap string string)
    (disk : gmap string node) :
  status (run h on env disk) = 0 →
  ∃ e k s config creds,
    env !! "R2_S3_ENDPOINT" = Some e ∧
    env !! "R2_ACCESS_KEY_ID" = Some k ∧
    env !! "R2_SECRET_ACCESS_KEY" = Some s ∧
    files (run h on env disk) !! config_file_of h = Some (File config) ∧
    files (run h on env disk) !! creds_file_of h = Some (File creds) ∧
    config = "[default]" +:+ PyStr.nl +:+
             "endpoint_url = " +:+ e +:+ PyStr.nl +:+
             "region = auto" +:+ PyStr.nl +:+
             "output = json" +:+ PyStr.nl ∧
    creds = "[default]" +:+ PyStr.nl +:+
            "aws_access_key_id = " +:+ k +:+ PyStr.nl +:+
            "aws_secret_access_key = " +:+ s +:+ PyStr.nl ∧
    (newline_free e = true →
     PyStr.lines config =
       ["[default]"; "endpoint_url = " +:+ e; "region = auto"; "output = json"; ""]) ∧
    (newline_free k = true → newline_free s = true →
     PyStr.lines creds =
       ["[default]"; "aws_access_key_id = " +:+ k;
        "aws_secret_access_key = " +:+ s; ""]).
Proof.
  rewrite run_eq. cbn zeta.
  destruct (disk !! aws_dir_of h) as [[|x]|]; [| |done].
  2: { case_bool_decide; [done|]. by case_decide. }
  case_bool_decide; [done|].
  case_decide as HE; [done|].
  destruct (may_write on (config_file_of h)); [|done].
  destruct (encodes on (config_text _)); [|done]. cbn [negb].
  case_decide as HK; [done|].
  case_decide as HS; [done|].
  apply not_missing in HE as (e & He & _), HK as (k & Hk & _), HS as (s & Hs & _).
  rewrite He, Hk, Hs.
  change (default "" (Some e)) with e. change (default "" (Some k)) with k.
  change (default "" (Some s)) with s.
  assert (∀ d : gmap string node,
    let o := Outcome (Ok tt) 0 []
               (<[creds_file_of h := File (creds_text k s)]>
                  (<[config_file_of h := File (config_text e)]> d)) in
    ∃ e' k' s' config creds,
      Some e = Some e' ∧ Some k = Some k' ∧ Some s = Some s' ∧
      files o !! config_file_of h = Some (File config) ∧
      files o !! creds_file_of h = Some (File creds) ∧
      config = config_text e' ∧ creds = creds_text k' s' ∧
      (newline_free e' = true →
       PyStr.lines config =
         ["[default]"; "endpoint_url = " +:+ e'; "region = auto";
          "output = json"; ""]) ∧
      (newline_free k' = true → newline_free s' = true →
       PyStr.lines creds =
         ["[default]"; "aws_access_key_id = " +:+ k';
          "aws_secret_access_key = " +:+ s'; ""])) as Hdone.
  { intros d. cbn zeta. cbn [files].
    exists e, k, s, (config_text e), (creds_text k s). do 3 (split; [done|]).
    split.
    { by rewrite lookup_insert_ne, lookup_insert_eq
        by (apply not_eq_sym, config_ne_creds). }
    split; [by rewrite lookup_insert_eq|]. do 2 (split; [done|]).
    split; [apply config_text_lines|apply creds_text_lines]. }
  destruct (disk !! creds_file_of h) as [[|old]|]; [done|..];
    (destruct (may_write on (creds_file_of h)); [|done]);
    (destruct (encodes on (creds_text k s)); [|done]);
    intros _; apply Hdone.
Qed.

Lemma success_file_contents_witness :
  ∃ e k s config creds,
    env_all !! "R2_S3_ENDPOINT" = Some e ∧
    env_all !! "R2_ACCESS_KEY_ID" = Some k ∧
    env_all !! "R2_SECRET_ACCESS_KEY" = Some s ∧
    files (run home_ci host_ci env_all disk_aws) !! config_file_of home_ci
      = Some (File config) ∧
    files (run home_ci host_ci env_all disk_aws) !! creds_file_of home_ci
      = Some (File creds) ∧
    config = "[default]" +:+ PyStr.nl +:+
             "endpoint_url = " +:+ e +:+ PyStr.nl +:+
             "region = auto" +:+ PyStr.nl +:+
             "output = json" +:+ PyStr.nl ∧
    creds = "[default]" +:+ PyStr.nl +:+
            "aws_access_key_id = " +:+ k +:+ PyStr.nl +:+
            "aws_secret_access_key = " +:+ s +:+ PyStr.nl ∧
    (newline_free e = true →
     PyStr.lines config =
       ["[default]"; "endpoint_url = " +:+ e; "region = auto"; "output = json"; ""]) ∧
    (newline_free k = true → newline_free s = true →
     PyStr.lines creds =
       ["[default]"; "aws_access_key_id = " +:+ k;
        "aws_secret_access_key = " +:+ s; ""]).
Proof.
  apply (success_file_contents home_ci host_ci env_all disk_aws).
  vm_compute. reflexivity.
Defined.

(** The run up to the first variable that is missing: with [~/.aws] a
    directory, no config file, the variables read before [key] set and, when
    [key] is read after the config file is written, that write going
    through, the run prints the diagnostic for [key] and exits with 2. *)
Lemma run_missing_reported (h : string) (on : host)
    (env : gmap string string) (disk : gmap string node)
    (i : nat) (key : string) :
  required_vars !! i = Some key →
  disk !! aws_dir_of h = Some Dir →
  disk !! config_file_of h = None →
  (∀ j k, (j < i)%nat → required_vars !! j = Some k → ¬ missing env k) →
  missing env key →
  (i ≠ 0%nat →
   may_write on (config_file_of h) = true ∧
   ∀ e, env !! "R2_S3_ENDPOINT" = Some e → encodes on (config_text e) = true) →
  raised (run h on env disk) = Raise (SystemExit 2) ∧
  status (run h on env disk) = 2 ∧
  printed (run h on env disk)
  = ["Missing required environment variable: " +:+ key].
Proof.
  intros Hi HA HC Hbefore Hmiss Hwritable.
  rewrite run_eq. cbn zeta. rewrite HA, HC.
  rewrite bool_decide_eq_false_2 by by intros [? ?].
  destruct i as [|i]; cbn in Hi.
  { simplify_eq. by rewrite decide_True by done. }
  assert (¬ missing env "R2_S3_ENDPOINT") as HE
    by (apply (Hbefore 0%nat); [lia|done]).
  destruct (Hwritable ltac:(done)) as [Hw Henc].
  destruct (not_missing _ _ HE) as (e & He & Hne).
  rewrite decide_False by done. rewrite He.
  change (default "" (Some e)) with e. rewrite Hw, (Henc e He). cbn [negb].
  destruct i as [|i]; cbn in Hi.
  { simplify_eq. by rewrite decide_True by done. }
  assert (¬ missing env "R2_ACCESS_KEY_ID") as HK
    by (apply (Hbefore 1%nat); [lia|done]).
  rewrite decide_False by done.
  destruct i as [|i]; cbn in Hi; simplify_eq.
  by rewrite decide_True by done.
Qed.



(** The script reports a variable only when it gets to read it: with the
    endpoint unset and the access key id empty, the one diagnostic printed
    names the endpoint, which is read first. *)
Lemma empty_key_id_not_reported :
  let env : gmap string string := <["R2_ACCESS_KEY_ID" := ""]> ∅ in
  let o := run home_ci host_ci env disk_aws in
  "R2_ACCESS_KEY_ID" ∈ required_vars ∧
  env !! "R2_ACCESS_KEY_ID" = Some "" ∧
  printed o = ["Missing required environment variable: R2_S3_ENDPOINT"] ∧
  printed o ≠ ["Missing required environment variable: R2_ACCESS_KEY_ID"].
Proof.
  cbn zeta. split; [unfold required_vars; repeat constructor|].
  split; [by vm_compute|]. split; [by vm_compute|]. vm_compute. discriminate.
Qed.











(** * Further properties of the script *)

(** ** What a run writes *)

(** A run writes nothing, or a file at the config path alone, or a file at
    the config path and then one at the credentials path; it writes at the
    config path only where nothing was, below a directory, and at the
    credentials path only where no directory is. *)
Lemma run_writes (h : string) (on : host) (env : gmap string string)
    (disk : gmap string node) :
  files (run h on env disk) = disk ∨
  (disk !! aws_dir_of h = Some Dir ∧
   disk !! config_file_of h = None ∧
   ∃ t,
     files (run h on env disk) = <[config_file_of h := File t]> disk
     ∨ (disk !! creds_file_of h ≠ Some Dir ∧
        ∃ t', files (run h on env disk) =
                <[creds_file_of h := File t']> (<[config_file_of h := File t]> disk))).
Proof.
  rewrite run_eq. cbn zeta.
  destruct (disk !! aws_dir_of h) as [[|x]|] eqn:HA; [| |by left].
  2: { case_bool_decide; [by left|]. case_decide; by left. }
  case_bool_decide as HC; [by left|].
  case_decide as HE; [by left|].
  destruct (may_write on (config_file_of h)); cbn [negb]; [|by left].
  right. split; [done|]. split.
  { destruct (disk !! config_file_of h) eqn:E; [|done]. destruct HC. by eexists. }
  destruct (encodes on (config_text _)); cbn [negb]; [|by eexists; left].
  eexists.
  case_decide; [by left|].
  case_decide; [by left|].
  destruct (disk !! creds_file_of h) as [[|old]|]; [by left| |];
    (destruct (may_write on (creds_file_of h)); cbn [negb]; [|by left]);
    (destruct (encodes on (creds_text _ _)); cbn [negb]);
    right; (split; [done|]); by eexists.
Qed.

Lemma all_set_iff (env : gmap string string) :
  (∀ k, k ∈ required_vars → ¬ missing env k) ↔
  ¬ missing env "R2_S3_ENDPOINT" ∧ ¬ missing env "R2_ACCESS_KEY_ID"
  ∧ ¬ missing env "R2_SECRET_ACCESS_KEY".
Proof.
  unfold required_vars. split.
  - intros Hall. repeat split; apply Hall; repeat constructor.
  - intros (HE & HK & HS) k Hk.
    apply elem_of_cons in Hk as [->|Hk]; [done|].
    apply elem_of_cons in Hk as [->|Hk]; [done|].
    apply elem_of_cons in Hk as [->|Hk]; [done|].
    by apply elem_of_nil in Hk.
Qed.

(** X1: a run ends with status 0 only when [~/.aws] is a directory, no
    config file is there, the credentials path is not a directory, the
    three variables are set non-empty, the host lets the process write both
    paths and the locale codec encodes both texts; the run then returns,
    prints nothing and leaves the two texts at the two paths. *)
Theorem run_succeeds_only_if (h : string) (on : host)
    (env : gmap string string) (disk : gmap string node) :
  status (run h on env disk) = 0 →
  disk !! aws_dir_of h = Some Dir ∧
  disk !! config_file_of h = None ∧
  disk !! creds_file_of h ≠ Some Dir ∧
  (∀ k, k ∈ required_vars → ¬ missing env k) ∧
  may_write on (config_file_of h) = true ∧
  may_write on (creds_file_of h) = true ∧
  ∃ e k s,
    env !! "R2_S3_ENDPOINT" = Some e ∧
    env !! "R2_ACCESS_KEY_ID" = Some k ∧
    env !! "R2_SECRET_ACCESS_KEY" = Some s ∧
    encodes on (config_text e) = true ∧
    encodes on (creds_text k s) = true ∧
    raised (run h on env disk) = Ok tt ∧
    printed (run h on env disk) = [] ∧
    files (run h on env disk) !! config_file_of h = Some (File (config_text e)) ∧
    files (run h on env disk) !! creds_file_of h = Some (File (creds_text k s)).
Proof.
  rewrite all_set_iff, run_eq. cbn zeta.
  destruct (disk !! aws_dir_of h) as [[|x]|]; [| |done].
  2: { case_bool_decide; [done|]. by case_decide. }
  case_bool_decide as HC; [done|].
  case_decide as HE; [done|].
  destruct (may_write on (config_file_of h)); cbn [negb]; [|done].
  destruct (encodes on (config_text _)) eqn:HeC; cbn [negb]; [|done].
  case_decide as HK; [done|].
  case_decide as HS; [done|].
  assert (disk !! config_file_of h = None) as HCn.
  { destruct (disk !! config_file_of h) eqn:E; [|done]. destruct HC. by eexists. }
  destruct (not_missing _ _ HE) as (e & He & _).
  destruct (not_missing _ _ HK) as (k & Hk & _).
  destruct (not_missing _ _ HS) as (s & Hs & _).
  rewrite He, Hk, Hs in *.
  change (default "" (Some e)) with e in *.
  change (default "" (Some k)) with k.
  change (default "" (Some s)) with s.
  assert (∀ d : gmap string node,
    (<[creds_file_of h := File (creds_text k s)]>
       (<[config_file_of h := File (config_text e)]> d)) !! config_file_of h
    = Some (File (config_text e))) as Hcfg.
  { intros d. rewrite lookup_insert_ne by (apply not_eq_sym, config_ne_creds).
    apply lookup_insert_eq. }
  destruct (disk !! creds_file_of h) as [[|old]|]; [done| |];
    (destruct (may_write on (creds_file_of h)); cbn [negb]; [|done]);
    (destruct (encodes on (creds_text _ _)) eqn:HeK; cbn [negb]; [|done]);
    intros _; cbn [raised printed files];
    (do 6 (split; [done|]));
    exists e, k, s; rewrite Hcfg, lookup_insert_eq; done.
Qed.

Lemma run_succeeds_only_if_witness :
  disk_aws !! aws_dir_of home_ci = Some Dir ∧
  may_write host_ci (creds_file_of home_ci) = true.
Proof.
  destruct (run_succeeds_only_if home_ci host_ci env_all disk_aws)
    as (HA & _ & _ & _ & _ & HwK & _).
  - vm_compute. reflexivity.
  - split; assumption.
Defined.

(** X2: situations in which the run ends in an uncaught exception, with
    status 1 and nothing printed: [~/.aws] does not exist (the [TypeError]
    of [os.makedirs]); [~/.aws] is a regular file, with no config node and
    the endpoint set; the config file cannot be opened for writing or its
    text cannot be encoded; or the config file is written and the
    credentials path is a directory, cannot be opened for writing, or the
    credentials text cannot be encoded. *)
Theorem run_crashes_when (h : string) (on : host)
    (env : gmap string string) (disk : gmap string node) :
  disk !! aws_dir_of h = None
  ∨ ((∃ x, disk !! aws_dir_of h = Some (File x)) ∧
     disk !! config_file_of h = None ∧
     ¬ missing env "R2_S3_ENDPOINT")
  ∨ (disk !! aws_dir_of h = Some Dir ∧
     disk !! config_file_of h = None ∧
     ∃ e, env !! "R2_S3_ENDPOINT" = Some e ∧ e ≠ "" ∧
       (may_write on (config_file_of h) = false
        ∨ encodes on (config_text e) = false
        ∨ (∃ k s,
             env !! "R2_ACCESS_KEY_ID" = Some k ∧ k ≠ "" ∧
             env !! "R2_SECRET_ACCESS_KEY" = Some s ∧ s ≠ "" ∧
             (disk !! creds_file_of h = Some Dir
              ∨ may_write on (creds_file_of h) = false
              ∨ encodes on (creds_text k s) = false)))) →
  status (run h on env disk) = 1 ∧
  printed (run h on env disk) = [] ∧
  ∃ err, raised (run h on env disk) = Raise err ∧ ∀ c, err ≠ SystemExit c.
Proof.
  rewrite run_eq. cbn zeta.
  intros [HA|[([x HA] & HC & HE)|(HA & HC & e & He & Hne & Hcase)]]; rewrite HA.
  - cbn. do 2 (split; [done|]). by eexists.
  - rewrite HC, bool_decide_eq_false_2 by by intros [? ?].
    rewrite decide_False by done. cbn. do 2 (split; [done|]). by eexists.
  - rewrite HC, bool_decide_eq_false_2 by by intros [? ?].
    rewrite decide_False by (unfold missing; intuition congruence).
    rewrite He. change (default "" (Some e)) with e.
    destruct (may_write on (config_file_of h)); cbn [negb].
    2: { cbn. do 2 (split; [done|]). by eexists. }
    destruct (encodes on (config_text e)); cbn [negb].
    2: { cbn. do 2 (split; [done|]). by eexists. }
    destruct Hcase as [?|[?|(k & s & Hk & Hkne & Hs & Hsne & Hcase)]]; [done..|].
    rewrite !decide_False by (unfold missing; intuition congruence).
    rewrite Hk, Hs. change (default "" (Some k)) with k.
    change (default "" (Some s)) with s.
    destruct (disk !! creds_file_of h) as [[|old]|].
    { cbn. do 2 (split; [done|]). by eexists. }
    all: destruct (may_write on (creds_file_of h)); cbn [negb];
      [|cbn; do 2 (split; [done|]); by eexists].
    all: destruct (encodes on (creds_text k s)); cbn [negb];
      [|cbn; do 2 (split; [done|]); by eexists].
    all: by destruct Hcase as [?|[?|?]].
Qed.

Lemma run_crashes_when_witness :
  status (run home_ci host_ci env_all disk_creds_dir) = 1 ∧
  printed (run home_ci host_ci env_all disk_creds_dir) = [] ∧
  ∃ err, raised (run home_ci host_ci env_all disk_creds_dir) = Raise err
         ∧ ∀ c, err ≠ SystemExit c.
Proof.
  apply (run_crashes_when home_ci host_ci env_all disk_creds_dir).
  right. right. split; [vm_compute; reflexivity|].
  split; [vm_compute; reflexivity|].
  exists "https://x.r2.cloudflarestorage.com".
  split; [vm_compute; reflexivity|]. split; [discriminate|].
  right. right. exists "AKIA...", "secret".
  split; [vm_compute; reflexivity|]. split; [discriminate|].
  split; [vm_compute; reflexivity|]. split; [discriminate|].
  left. vm_compute. reflexivity.
Defined.

(** X3: the exit status is 0, 1 or 2.  The script prints exactly one line
    when it ends with status 2 and nothing otherwise, and status 2 is
    always the [SystemExit(2)] of one of its two checks. *)
Theorem one_diagnostic_per_exit (h : string) (on : host)
    (env : gmap string string) (disk : gmap string node) :
  let o := run h on env disk in
  (status o = 0 ∨ status o = 1 ∨ status o = 2) ∧
  (status o = 2 ↔ ∃ line, printed o = [line]) ∧
  (status o ≠ 2 ↔ printed o = []) ∧
  (status o = 2 ↔ raised o = Raise (SystemExit 2)).
Proof.
  cbn zeta. rewrite run_eq. cbn zeta.
  assert (∀ line d,
    let o := Outcome (Raise (SystemExit 2)) 2 [line] d in
    (status o = 0 ∨ status o = 1 ∨ status o = 2) ∧
    (status o = 2 ↔ ∃ line, printed o = [line]) ∧
    (status o ≠ 2 ↔ printed o = []) ∧
    (status o = 2 ↔ raised o = Raise (SystemExit 2))) as Hexit.
  { intros line d. cbn. split; [auto|]. split; [|split].
    - split; [by eexists|done].
    - split; [done|discriminate].
    - done. }
  assert (∀ e d,
    (∀ c, e ≠ SystemExit c) →
    let o := Outcome (Raise e) 1 [] d in
    (status o = 0 ∨ status o = 1 ∨ status o = 2) ∧
    (status o = 2 ↔ ∃ line, printed o = [line]) ∧
    (status o ≠ 2 ↔ printed o = []) ∧
    (status o = 2 ↔ raised o = Raise (SystemExit 2))) as Hcrash.
  { intros e d He. cbn. split; [auto|]. split; [|split].
    - split; [done|]. by intros [? ?].
    - done.
    - split; [done|]. intros [= ->]. by destruct (He 2). }
  destruct (disk !! aws_dir_of h) as [[|x]|]; [| |by apply Hcrash].
  - case_bool_decide; [by apply Hexit|].
    case_decide; [by apply Hexit|].
    destruct (may_write on (config_file_of h)); cbn [negb]; [|by apply Hcrash].
    destruct (encodes on (config_text _)); cbn [negb]; [|by apply Hcrash].
    case_decide; [by apply Hexit|].
    case_decide; [by apply Hexit|].
    destruct (disk !! creds_file_of h) as [[|old]|]; [by apply Hcrash|..];
      (destruct (may_write on (creds_file_of h)); cbn [negb]; [|by apply Hcrash]);
      (destruct (encodes on (creds_text _ _)); cbn [negb]; [|by apply Hcrash]);
      cbn; (split; [auto|]); (split; [|split]);
      (split; [done|]); try discriminate; by intros [? ?].
  - case_bool_decide; [by apply Hexit|].
    case_decide; [by apply Hexit|by apply Hcrash].
Qed.

(** X4: when several variables are missing, one diagnostic is printed, for
    the first missing one in the order the script reads them:
    [R2_S3_ENDPOINT], [R2_ACCESS_KEY_ID], [R2_SECRET_ACCESS_KEY].  For the
    two variables read after the config file is written this holds when
    that file can be written: the host lets the process write it and the
    locale codec encodes its text. *)
Theorem first_missing_reported (h : string) (on : host)
    (env : gmap string string) (disk : gmap string node) (i : nat) (k : string) :
  disk !! aws_dir_of h = Some Dir →
  disk !! config_file_of h = None →
  list_find (missing env) required_vars = Some (i, k) →
  (i ≠ 0%nat →
   may_write on (config_file_of h) = true ∧
   ∀ e, env !! "R2_S3_ENDPOINT" = Some e → encodes on (config_text e) = true) →
  raised (run h on env disk) = Raise (SystemExit 2) ∧
  printed (run h on env disk) = ["Missing required environment variable: " +:+ k].
Proof.
  intros HA HC Hfind Hwritable.
  apply list_find_Some in Hfind as (Hi & Hmiss & Hbefore).
  destruct (run_missing_reported h on env disk i k) as (Hr & _ & Hp); try done.
  intros j y Hj Hy. by eapply Hbefore.
Qed.

Lemma first_missing_reported_witness :
  let env : gmap string string :=
    <["R2_S3_ENDPOINT" := "https://x.r2.cloudflarestorage.com"]>
      (<["R2_ACCESS_KEY_ID" := ""]> ∅) in
  raised (run home_ci host_ci env disk_aws) = Raise (SystemExit 2) ∧
  printed (run home_ci host_ci env disk_aws)
    = ["Missing required environment variable: " +:+ "R2_ACCESS_KEY_ID"].
Proof.
  apply (first_missing_reported home_ci host_ci _ disk_aws 1%nat "R2_ACCESS_KEY_ID").
  - vm_compute. reflexivity.
  - vm_compute. reflexivity.
  - vm_compute. reflexivity.
  - intros _. split; [reflexivity|].
    intros e He. vm_compute in He. injection He as <-. vm_compute. reflexivity.
Defined.

(** X5: a config node that is there is never touched, whatever else holds:
    every run that finds one writes nothing at all and ends with a non-zero
    status. *)
Theorem config_never_modified (h : string) (on : host)
    (env : gmap string string) (disk : gmap string node) (n : node) :
  disk !! config_file_of h = Some n →
  files (run h on env disk) = disk ∧ status (run h on env disk) ≠ 0.
Proof.
  intros HC. rewrite run_eq. cbn zeta. rewrite HC.
  rewrite bool_decide_eq_true_2 by by eexists.
  by destruct (disk !! aws_dir_of h).
Qed.

Lemma config_never_modified_witness :
  files (run home_ci host_ci env_all disk_config) = disk_config ∧
  status (run home_ci host_ci env_all disk_config) ≠ 0.
Proof.
  apply (config_never_modified home_ci host_ci env_all disk_config (File "operator")).
  vm_compute. reflexivity.
Defined.

(** X6: a run removes nothing and creates no directory: every path that
    named something names something afterwards, and the directories after
    the run are the directories before it.  In particular [~/.aws] is never
    created. *)
Theorem run_keeps_directories (h : string) (on : host)
    (env : gmap string string) (disk : gmap string node) (q : string) :
  (is_Some (disk !! q) → is_Some (files (run h on env disk) !! q)) ∧
  (files (run h on env disk) !! q = Some Dir ↔ disk !! q = Some Dir).
Proof.
  destruct (run_writes h on env disk)
    as [->|(HA & HC & t & [->|(HK & t' & ->)])]; [done|..].
  - destruct (decide (q = config_file_of h)) as [->|Hq].
    + rewrite lookup_insert_eq, HC. split; [by intros [? ?]|done].
    + by rewrite lookup_insert_ne.
  - destruct (decide (q = creds_file_of h)) as [->|Hq].
    { rewrite lookup_insert_eq. split; [by eexists|done]. }
    rewrite lookup_insert_ne by done.
    destruct (decide (q = config_file_of h)) as [->|Hq'].
    + rewrite lookup_insert_eq, HC. split; [by intros [? ?]|done].
    + by rewrite lookup_insert_ne.
Qed.



(** X8: the node at the credentials path changes only after the config file
    has been written in full by the same run: [~/.aws] was a directory, no
    config file was there, the three variables are set, and the config path
    holds the config text.  The run then either ends with status 0 and the
    credentials text at the path, or with status 1 and an empty file
    there, the credentials text being one the locale codec cannot
    encode. *)
Theorem credentials_change_after_config (h : string) (on : host)
    (env : gmap string string) (disk : gmap string node) :
  files (run h on env disk) !! creds_file_of h ≠ disk !! creds_file_of h →
  disk !! aws_dir_of h = Some Dir ∧
  disk !! config_file_of h = None ∧
  ∃ e k s,
    env !! "R2_S3_ENDPOINT" = Some e ∧ e ≠ "" ∧
    env !! "R2_ACCESS_KEY_ID" = Some k ∧ k ≠ "" ∧
    env !! "R2_SECRET_ACCESS_KEY" = Some s ∧ s ≠ "" ∧
    files (run h on env disk) !! config_file_of h = Some (File (config_text e)) ∧
    ((status (run h on env disk) = 0 ∧
      files (run h on env disk) !! creds_file_of h = Some (File (creds_text k s)))
     ∨
     (status (run h on env disk) = 1 ∧
      encodes on (creds_text k s) = false ∧
      files (run h on env disk) !! creds_file_of h = Some (File ""))).
Proof.
  rewrite run_eq. cbn zeta.
  destruct (disk !! aws_dir_of h) as [[|x]|]; [| |done].
  2: { case_bool_decide; [done|]. by case_decide. }
  case_bool_decide as HC; [done|].
  case_decide as HE; [done|].
  destruct (may_write on (config_file_of h)); cbn [negb]; [|done].
  destruct (encodes on (config_text _)); cbn [negb].
  2: { cbn [files]. by rewrite lookup_insert_ne by apply config_ne_creds. }
  case_decide as HK.
  { cbn [files]. by rewrite lookup_insert_ne by apply config_ne_creds. }
  case_decide as HS.
  { cbn [files]. by rewrite lookup_insert_ne by apply config_ne_creds. }
  assert (disk !! config_file_of h = None) as HCn.
  { destruct (disk !! config_file_of h) eqn:E; [|done]. destruct HC. by eexists. }
  destruct (not_missing _ _ HE) as (e & He & Hne).
  destruct (not_missing _ _ HK) as (k & Hk & Hkne).
  destruct (not_missing _ _ HS) as (s & Hs & Hsne).
  rewrite He, Hk, Hs.
  change (default "" (Some e)) with e.
  change (default "" (Some k)) with k.
  change (default "" (Some s)) with s.
  assert (∀ (t : string) (d : gmap string node),
    (<[creds_file_of h := File t]>
       (<[config_file_of h := File (config_text e)]> d)) !! config_file_of h
    = Some (File (config_text e))) as Hcfg.
  { intros t d. rewrite lookup_insert_ne by (apply not_eq_sym, config_ne_creds).
    apply lookup_insert_eq. }
  destruct (disk !! creds_file_of h) as [[|old]|] eqn:HKf.
  { cbn [files]. by rewrite lookup_insert_ne by apply config_ne_creds. }
  all: destruct (may_write on (creds_file_of h)); cbn [negb];
    [|cbn [files]; by rewrite lookup_insert_ne by apply config_ne_creds].
  all: destruct (encodes on (creds_text k s)) eqn:HeK; cbn [negb];
    cbn [files status]; intros _; do 2 (split; [done|]);
    exists e, k, s; rewrite Hcfg, lookup_insert_eq;
    do 7 (split; [done|]); [by left|by right].
Qed.

Lemma credentials_change_after_config_witness :
  disk_creds !! config_file_of home_ci = None.
Proof.
  destruct (credentials_change_after_config home_ci host_ci env_all disk_creds)
    as (_ & HC & _).
  - vm_compute. discriminate.
  - exact HC.
Defined.

(** ** The two writers, on any path *)

(** Looking for the directory of a path raises nothing but the two errors
    of a missing or a wrong parent. *)
Lemma check_parent_raises (path : string) (p : process) (err : exn) :
  (check_parent path p).1 = Raise err → ∀ t, err ≠ UnicodeEncodeError t.
Proof.
  unfold check_parent. cbn zeta.
  destruct (PyStr.is_empty _); [done|].
  destruct (fs p !! _) as [[|x]|]; cbn; intros [= <-]; done.
Qed.


(** X10: what [write_creds] does to the path it is given.  It does not look
    at what is at the path: when it returns, nothing was printed and the
    path holds the credentials text of two non-empty values, whether or not
    a file was there before.  When it raises [UnicodeEncodeError], the path
    holds an empty file: a file that was there has lost its text.  When it
    raises anything else (from reading a variable or from opening the
    file) the filesystem is as it was.  The home directory, the host and
    the environment are never changed. *)
Theorem write_creds_outcomes (path : string) (p : process) :
  let r := (write_creds path p).1 in
  let p' := (write_creds path p).2 in
  home p' = home p ∧ platform p' = platform p ∧ environ p' = environ p ∧
  (r = Ok tt →
     stdout p' = stdout p ∧ fs p !! path ≠ Some Dir ∧
     ∃ k s, environ p !! "R2_ACCESS_KEY_ID" = Some k ∧ k ≠ "" ∧
            environ p !! "R2_SECRET_ACCESS_KEY" = Some s ∧ s ≠ "" ∧
            encodes (platform p) (creds_text k s) = true ∧
            fs p' !! path = Some (File (creds_text k s))) ∧
  (∀ t, r = Raise (UnicodeEncodeError t) →
     stdout p' = stdout p ∧ fs p !! path ≠ Some Dir ∧
     encodes (platform p) t = false ∧
     fs p' !! path = Some (File "")) ∧
  (∀ err, r = Raise err → (∀ t, err ≠ UnicodeEncodeError t) → fs p' = fs p).
Proof.
  cbn zeta. rewrite write_creds_eq.
  case_decide as HK.
  { cbn. do 3 (split; [done|]). split; [done|]. split; done. }
  case_decide as HS.
  { cbn. do 3 (split; [done|]). split; [done|]. split; done. }
  cbn zeta.
  apply not_missing in HK as (k & Hk & Hkne), HS as (s & Hs & Hsne).
  rewrite Hk, Hs.
  change (default "" (Some k)) with k. change (default "" (Some s)) with s.
  assert (fs p !! path ≠ Some Dir →
    let r := (write_text path (creds_text k s) p).1 in
    let p' := (write_text path (creds_text k s) p).2 in
    home p' = home p ∧ platform p' = platform p ∧ environ p' = environ p ∧
    (r = Ok tt →
       stdout p' = stdout p ∧ fs p !! path ≠ Some Dir ∧
       ∃ k0 s0, Some k = Some k0 ∧ k0 ≠ "" ∧
              Some s = Some s0 ∧ s0 ≠ "" ∧
              encodes (platform p) (creds_text k0 s0) = true ∧
              fs p' !! path = Some (File (creds_text k0 s0))) ∧
    (∀ t, r = Raise (UnicodeEncodeError t) →
       stdout p' = stdout p ∧ fs p !! path ≠ Some Dir ∧
       encodes (platform p) t = false ∧
       fs p' !! path = Some (File "")) ∧
    (∀ err, r = Raise err → (∀ t, err ≠ UnicodeEncodeError t) → fs p' = fs p))
    as Hwritten.
  { intros Hnd. cbn zeta. unfold write_text.
    destruct (may_write (platform p) path).
    2: { cbn. do 3 (split; [done|]). split; [done|]. split; done. }
    destruct (encodes (platform p) (creds_text k s)) eqn:Henc;
      cbn [fst snd set_fs home platform environ fs stdout];
      do 3 (split; [done|]); (split; [|split]).
    - intros _. do 2 (split; [done|]). exists k, s.
      by rewrite lookup_insert_eq.
    - done.
    - done.
    - done.
    - intros t [= <-]. by rewrite lookup_insert_eq.
    - intros err [= <-] Hn. by destruct (Hn (creds_text k s)). }
  pose proof (check_parent_raises path p) as Hparent.
  destruct (fs p !! path) as [[|old]|].
  - cbn. do 3 (split; [done|]). split; [done|]. split; done.
  - by apply Hwritten.
  - destruct (check_parent path p) as [[[]|err] p0]; [by apply Hwritten|].
    cbn. do 3 (split; [done|]). split; [done|]. split; [|done].
    intros t [= ->]. by destruct (Hparent _ eq_refl t).
Qed.

(** X11: [write_creds] can be repeated: after a call that returned, a
    second call on the same path returns as well and leaves the process
    exactly as the first call left it. *)
Theorem write_creds_idempotent (path : string) (p : process) :
  (write_creds path p).1 = Ok tt →
  write_creds path (write_creds path p).2 = write_creds path p.
Proof.
  rewrite (write_creds_eq path p).
  case_decide as HK; [done|].
  case_decide as HS; [done|].
  cbn zeta.
  assert (∀ t : string,
    t = creds_text (default "" (environ p !! "R2_ACCESS_KEY_ID"))
                   (default "" (environ p !! "R2_SECRET_ACCESS_KEY")) →
    (write_text path t p).1 = Ok tt →
    write_creds path (write_text path t p).2 = write_text path t p) as Hagain.
  { intros t ->. unfold write_text.
    destruct (may_write (platform p) path) eqn:Hw; [|done].
    destruct (encodes (platform p) _) eqn:Henc; [|done].
    intros _. cbn [fst snd].
    rewrite write_creds_eq. cbn [set_fs environ fs].
    rewrite !decide_False by done. cbn zeta.
    rewrite lookup_insert_eq. unfold write_text, set_fs.
    cbn [home platform environ fs stdout].
    by rewrite Hw, Henc, insert_insert_eq. }
  destruct (fs p !! path) as [[|old]|]; [done| |].
  - by apply Hagain.
  - destruct (check_parent path p) as [[[]|err] p0]; [|done].
    by apply Hagain.
Qed.

Lemma write_creds_idempotent_witness :
  let p := Process home_ci host_ci env_all disk_aws [] in
  write_creds (creds_file_of home_ci) (write_creds (creds_file_of home_ci) p).2
  = write_creds (creds_file_of home_ci) p.
Proof.
  apply (write_creds_idempotent (creds_file_of home_ci)
           (Process home_ci host_ci env_all disk_aws [])).
  vm_compute. reflexivity.
Defined.



(** ** Paths and texts *)

(** X13: whatever string the home directory is (empty, relative, with or
    without a slash at its end), the two paths [main] computes split back
    into the directory it computed and the names [config] and
    [credentials]: both files lie directly in [~/.aws], and the three
    paths are pairwise different. *)
Theorem target_paths_in_aws_dir (h : string) :
  let aws_dir := PosixPath.join h ".aws" in
  let config_file := PosixPath.join aws_dir "config" in
  let creds_file := PosixPath.join aws_dir "credentials" in
  PosixPath.split config_file = (aws_dir, "config") ∧
  PosixPath.split creds_file = (aws_dir, "credentials") ∧
  config_file ≠ creds_file ∧ aws_dir ≠ config_file ∧ aws_dir ≠ creds_file.
Proof.
  cbn zeta. fold (aws_dir_of h).
  rewrite !split_join by auto using aws_dir_nonempty, aws_dir_no_slash.
  do 2 (split; [done|]).
  fold (config_file_of h) (creds_file_of h).
  auto using config_ne_creds, aws_dir_ne_config, aws_dir_ne_creds.
Qed.

(** X14: when the values hold no newline, the text the config template
    formats to has exactly the lines [[default]], [endpoint_url = <value>],
    [region = auto], [output = json], and the text of the credentials
    template exactly [[default]], [aws_access_key_id = <value>],
    [aws_secret_access_key = <value>]; each text ends with a newline. *)
Theorem generated_lines (e k s : string) :
  newline_free e = true → newline_free k = true → newline_free s = true →
  (∃ text,
     PyStr.format (PyStr.dedent config_literal) [e] = Ok text ∧
     PyStr.lines text =
       ["[default]"; "endpoint_url = " +:+ e; "region = auto"; "output = json"; ""]) ∧
  (∃ text,
     PyStr.format (PyStr.dedent creds_literal) [k; s] = Ok text ∧
     PyStr.lines text =
       ["[default]"; "aws_access_key_id = " +:+ k;
        "aws_secret_access_key = " +:+ s; ""]).
Proof.
  intros He Hk Hs. split.
  - exists (config_text e). split; [apply format_config|].
    by apply config_text_lines.
  - exists (creds_text k s). split; [apply format_creds|].
    by apply creds_text_lines.
Qed.

Lemma generated_lines_witness :
  (∃ text,
     PyStr.format (PyStr.dedent config_literal) ["https://x.r2.cloudflarestorage.com"]
       = Ok text ∧
     PyStr.lines text =
       ["[default]"; "endpoint_url = " +:+ "https://x.r2.cloudflarestorage.com";
        "region = auto"; "output = json"; ""]) ∧
  (∃ text,
     PyStr.format (PyStr.dedent creds_literal) ["AKIA..."; "secret"] = Ok text ∧
     PyStr.lines text =
       ["[default]"; "aws_access_key_id = " +:+ "AKIA...";
        "aws_secret_access_key = " +:+ "secret"; ""]).
Proof.
  apply (generated_lines "https://x.r2.cloudflarestorage.com" "AKIA..." "secret");
    vm_compute; reflexivity.
Defined.
